(** * Abalone age predictor: the predict-button handler of [streamlit_app.py]

    Numbers are the Python floats of the page, modelled here as exact
    rationals [Q]: the sliders produce non-negative values, the handler
    compares them with [==] and [<] and combines them with [+] and [/].
    Python's [/] raises [ZeroDivisionError] on a zero divisor, which is
    modelled by [py_div].  The page's effects (messages, metrics and charts
    written to the Streamlit page, the call into the trained model) are
    recorded in an event log threaded by a small exception-and-log monad. *)

From Stdlib Require Import QArith Lqa String List Bool.
Import ListNotations.
Open Scope Q_scope.

(** ** Data model *)

(** The seven slider values (lines 31-82). *)
Record measurements := mkMeasurements {
  length : Q;
  diameter : Q;
  height : Q;
  whole_weight : Q;
  shucked_weight : Q;
  viscera_weight : Q;
  shell_weight : Q
}.

(** The one-row DataFrame handed to [model.predict] (lines 97-107). *)
Record df_input := mkDfInput {
  df_length : Q;
  df_diameter : Q;
  df_height : Q;
  df_whole_weight : Q;
  df_shucked_weight : Q;
  df_viscera_weight : Q;
  df_shell_weight : Q;
  df_shell_ratio : Q;
  df_shucked_ratio : Q
}.

Inductive exn :=
| ZeroDivisionError
| ValueError (msg : string).

(** What the handler writes to the page, and the call into the model. *)
Inductive event :=
| EvError (msg : string)                 (* st.error *)
| EvInfo (msg : string)                  (* st.info *)
| EvPredict (row : df_input)             (* model.predict(df_input) *)
| EvMetric (label : string) (value : Q)  (* st.metric *)
| EvStage (category : string)            (* st.metric, life stage *)
| EvMeasurementChart (dims weights : list Q)
| EvAgeChart (user_index : nat) (age : Q)
| EvWrite (label : string) (values : list Q)
| EvSuccess (msg : string)
| EvWarning (msg : string)
| EvDetails (values : list Q).

(** ** The handler's monad: exceptions and an append-only page log

    A run yields its outcome (an exception or a value) together with the
    events it wrote to the page; a later step can only append to them. *)

Definition M (A : Type) : Type := ((exn + A) * list event)%type.

Definition ret {A} (a : A) : M A := (inr a, []).

Definition bind {A B} (m : M A) (k : A -> M B) : M B :=
  match m with
  | (inl e, w) => (inl e, w)
  | (inr a, w) => (fst (k a), w ++ snd (k a))
  end.

Definition raise {A} (e : exn) : M A := (inl e, []).

Definition emit (ev : event) : M unit := (inr tt, [ev]).

Notation "x <- m ;; k" := (bind m (fun x => k))
  (at level 61, m at next level, right associativity).
Notation "m ;;; k" := (bind m (fun _ => k))
  (at level 61, right associativity).

(** ** Python arithmetic *)

Definition py_eq (x y : Q) : bool := Qeq_bool x y.
Definition py_lt (x y : Q) : bool := negb (Qle_bool y x).
Definition py_gt (x y : Q) : bool := py_lt y x.

(** [x / y] in Python: [ZeroDivisionError] when [y == 0]. *)
Definition py_div (x y : Q) : M Q :=
  if py_eq y 0 then raise ZeroDivisionError else ret (x / y).

(** The [1e-8] of lines 93-94. *)
Definition eps : Q := 1e-8.

(** ** The handler, piece by piece *)

(** Line 88: the only validation rule of the page. *)
Definition all_zero (m : measurements) : bool :=
  py_eq (length m) 0 && py_eq (diameter m) 0 && py_eq (height m) 0
  && py_eq (whole_weight m) 0.

Definition invalid_input_msg : string :=
  "Invalid Input! Please enter measurements for your abalone.".
Definition tip_msg : string :=
  "Tip: Adjust the sliders to match your abalone's actual measurements.".

(** Lines 93-94: the two ratio features. *)
Definition build_features (m : measurements) : M (Q * Q) :=
  shell_ratio <- py_div (shell_weight m) (whole_weight m + eps) ;;
  shucked_ratio <- py_div (shucked_weight m) (whole_weight m + eps) ;;
  ret (shell_ratio, shucked_ratio).

(** Lines 97-107. *)
Definition make_df (m : measurements) (shell_ratio shucked_ratio : Q) : df_input :=
  mkDfInput (length m) (diameter m) (height m) (whole_weight m)
    (shucked_weight m) (viscera_weight m) (shell_weight m)
    shell_ratio shucked_ratio.

(** Line 111. *)
Definition estimated_age_of (y_pred : Q) : Q := y_pred + 1.5.

(** Lines 133-141. *)
Definition life_stage (estimated_age : Q) : string :=
  if py_lt estimated_age 7 then "Young"
  else if py_lt estimated_age 12 then "Adult"
  else "Mature".

(** Lines 199-206. *)
Definition age_bracket (estimated_age : Q) : nat :=
  if py_lt estimated_age 7 then 0%nat
  else if py_lt estimated_age 12 then 1%nat
  else if py_lt estimated_age 18 then 2%nat
  else 3%nat.

(** Lines 165-169 and 181-185: [for bar, value in zip(bars, values):
    height = bar.get_height()] rebinds the page's variable [height] to the
    height of each bar in turn, and a bar's height is its value. *)
Definition bar_label_loop (values : list Q) (height : Q) : Q :=
  fold_left (fun _ v => v) values height.

(** Lines 261-263: the weight summary, with its two percentages. *)
Definition weight_summary (m : measurements) : M unit :=
  emit (EvWrite "Total Weight" [whole_weight m]) ;;;
  meat_pct <- py_div (shucked_weight m) (whole_weight m) ;;
  emit (EvWrite "Meat Weight" [shucked_weight m; meat_pct * 100]) ;;;
  shell_pct <- py_div (shell_weight m) (whole_weight m) ;;
  emit (EvWrite "Shell Weight" [shell_weight m; shell_pct * 100]).

(** Line 268: the guarded meat percentage. *)
Definition meat_percentage (m : measurements) : Q :=
  if py_gt (whole_weight m) 0 then shucked_weight m / whole_weight m * 100
  else 0.

(** Lines 270-275. *)
Definition meat_insight (meat_pct : Q) : event :=
  if py_gt meat_pct 45 then EvSuccess "High meat content! Great for consumption."
  else if py_gt meat_pct 35 then EvInfo "Good meat content."
  else EvWarning "Lower meat content than average.".

Section Handler.

(** The trained model loaded at line 8: [model.predict(df)[0]]. *)
Variable predict : df_input -> Q.

(** Lines 237-256: the pie chart.  Its wedge sizes [shucked_weight,
    viscera_weight, shell_weight, whole_weight - shucked_weight -
    viscera_weight - shell_weight] are computed in floats and drawn by
    matplotlib's [ax3.pie], which raises [ValueError] on a negative wedge or
    on wedges that are all zero; the block is an external call here. *)
Variable pie_chart : measurements -> M unit.

Definition call_predict (row : df_input) : M Q :=
  emit (EvPredict row) ;;; ret (predict row).

(** Lines 85-286: the body of [if st.button("Predict Age")]. *)
Definition on_predict (m : measurements) : M unit :=
  if all_zero m then
    emit (EvError invalid_input_msg) ;;; emit (EvInfo tip_msg)
  else
    ratios <- build_features m ;;
    let df := make_df m (fst ratios) (snd ratios) in
    y_pred <- call_predict df ;;
    let estimated_age := estimated_age_of y_pred in
    emit (EvMetric "Number of Rings" y_pred) ;;;
    emit (EvMetric "Estimated Age" estimated_age) ;;;
    emit (EvStage (life_stage estimated_age)) ;;;
    emit (EvMeasurementChart [length m; diameter m; height m]
            [whole_weight m; shucked_weight m; viscera_weight m; shell_weight m]) ;;;
    (* after the bar-label loops of lines 165-169 and 181-185 *)
    let height_now :=
      bar_label_loop
        [whole_weight m; shucked_weight m; viscera_weight m; shell_weight m]
        (bar_label_loop [length m; diameter m; height m] (height m)) in
    emit (EvAgeChart (age_bracket estimated_age) estimated_age) ;;;
    pie_chart m ;;;
    weight_summary m ;;;
    emit (meat_insight (meat_percentage m)) ;;;
    (* line 282 formats [height] as it stands after the loops *)
    emit (EvDetails [length m; diameter m; height_now; whole_weight m;
                     shucked_weight m; viscera_weight m; shell_weight m]).

End Handler.

(** ** Observations on a run *)

Definition is_predict (ev : event) : bool :=
  match ev with EvPredict _ => true | _ => false end.

Definition is_error (ev : event) : bool :=
  match ev with EvError _ => true | _ => false end.

(** The page log of one button press. *)
Definition run_log (predict : df_input -> Q) (pie_chart : measurements -> M unit)
    (m : measurements) : list event :=
  snd (on_predict predict pie_chart m).

Definition predict_invoked predict pie_chart m : bool :=
  existsb is_predict (run_log predict pie_chart m).

Definition blocked predict pie_chart m : bool :=
  existsb is_error (run_log predict pie_chart m).

(** The slider ranges of lines 31-82. *)
Definition in_domain (m : measurements) : Prop :=
  0 <= length m <= 1 /\ 0 <= diameter m <= 1 /\ 0 <= height m <= 1 /\
  0 <= whole_weight m <= 3 /\ 0 <= shucked_weight m <= 2 /\
  0 <= viscera_weight m <= 1 /\ 0 <= shell_weight m <= 1.5.

(** A pie chart that draws and never raises, and a constant model. *)
Definition pie_draws : measurements -> M unit := fun _ => ret tt.

Definition const_model (r : Q) : df_input -> Q := fun _ => r.

Definition default_input : measurements :=
  mkMeasurements 0.5 0.4 0.15 0.8 0.35 0.18 0.24.

Example default_predicts : predict_invoked (const_model 9) pie_draws default_input = true.
Proof. reflexivity. Qed.

(** Two runs of the feature step on the same record (lines 93-94 twice). *)
Definition features_twice (m : measurements) : M ((Q * Q) * (Q * Q)) :=
  a <- build_features m ;;
  b <- build_features m ;;
  ret (a, b).

(** The failing input of the weight summary: a sized abalone of weight 0. *)
Definition weightless : measurements :=
  mkMeasurements 0.5 0.4 0.15 0 0 0 0.

(** Inputs breaking the plausibility rules of the spec (its invariants 2-4). *)
Definition shucked_heavy : measurements :=
  mkMeasurements 0.5 0.4 0.15 0.3 0.5 0.1 0.1.
Definition parts_heavy : measurements :=
  mkMeasurements 0.5 0.4 0.15 0.8 0.4 0.3 0.3.
Definition zero_length : measurements :=
  mkMeasurements 0 0.4 0.15 0.8 0.35 0.18 0.24.
Definition all_zero_input : measurements :=
  mkMeasurements 0 0 0 0 0.35 0.18 0.24.

(** ** Lemmas on the Python arithmetic *)

Lemma py_eq_true x y : py_eq x y = true <-> x == y.
Proof. apply Qeq_bool_iff. Qed.

Lemma py_lt_true x y : py_lt x y = true <-> x < y.
Proof.
  unfold py_lt. rewrite negb_true_iff. split; intro H.
  - apply Qnot_le_lt. intro H'. apply Qle_bool_iff in H'. congruence.
  - destruct (Qle_bool y x) eqn:E; [|reflexivity].
    apply Qle_bool_iff in E. exfalso. apply (Qlt_not_le x y); assumption.
Qed.

Lemma py_lt_false x y : py_lt x y = false <-> y <= x.
Proof.
  unfold py_lt. rewrite negb_false_iff. apply Qle_bool_iff.
Qed.

Lemma py_div_nonzero x y : py_eq y 0 = false -> py_div x y = ret (x / y).
Proof. intro H. unfold py_div. rewrite H. reflexivity. Qed.

Lemma py_div_zero x y : y == 0 -> py_div x y = raise ZeroDivisionError.
Proof.
  intro H. unfold py_div. apply py_eq_true in H. rewrite H. reflexivity.
Qed.

(** The [1e-8] guard: a non-negative weight plus [eps] is never zero. *)
Lemma eps_guard w : 0 <= w -> py_eq (w + eps) 0 = false.
Proof.
  intro H. destruct (py_eq (w + eps) 0) eqn:E; [|reflexivity].
  apply py_eq_true in E. assert (0 < eps) by reflexivity. exfalso. lra.
Qed.

Lemma all_zero_true m :
  all_zero m = true <->
  length m == 0 /\ diameter m == 0 /\ height m == 0 /\ whole_weight m == 0.
Proof.
  unfold all_zero. rewrite !andb_true_iff, !py_eq_true. tauto.
Qed.

(** ** The shape of a run *)

Lemma build_features_ok m :
  0 <= whole_weight m ->
  build_features m =
  (inr (shell_weight m / (whole_weight m + eps),
        shucked_weight m / (whole_weight m + eps)), []).
Proof.
  intro H. unfold build_features.
  rewrite !py_div_nonzero by (apply eps_guard; exact H). reflexivity.
Qed.

(** The row the model receives on an accepted input. *)
Definition model_row (m : measurements) : df_input :=
  make_df m (shell_weight m / (whole_weight m + eps))
    (shucked_weight m / (whole_weight m + eps)).

Lemma on_predict_rejected predict pie_chart m :
  all_zero m = true ->
  on_predict predict pie_chart m =
  (inr tt, [EvError invalid_input_msg; EvInfo tip_msg]).
Proof. intro H. unfold on_predict. rewrite H. reflexivity. Qed.

(** On an accepted input the first thing written is the model call, followed
    by the ring count, the age and the life stage. *)
Lemma on_predict_accepted predict pie_chart m :
  all_zero m = false -> 0 <= whole_weight m ->
  exists rest,
    run_log predict pie_chart m =
    EvPredict (model_row m)
    :: EvMetric "Number of Rings" (predict (model_row m))
    :: EvMetric "Estimated Age" (estimated_age_of (predict (model_row m)))
    :: EvStage (life_stage (estimated_age_of (predict (model_row m))))
    :: rest.
Proof.
  intros Hz Hw. unfold run_log, on_predict. rewrite Hz, build_features_ok by exact Hw.
  eexists. reflexivity.
Qed.

Lemma accepted_calls_model_first predict pie_chart m :
  all_zero m = false -> 0 <= whole_weight m ->
  exists rest,
    run_log predict pie_chart m = EvPredict (model_row m) :: rest /\
    predict_invoked predict pie_chart m = true.
Proof.
  intros Hz Hw. destruct (on_predict_accepted predict pie_chart m Hz Hw) as [rest E].
  eexists. split; [exact E|]. unfold predict_invoked. rewrite E. reflexivity.
Qed.

Lemma in_domain_whole m : in_domain m -> 0 <= whole_weight m.
Proof. unfold in_domain. tauto. Qed.

Lemma all_zero_false m :
  ~ (length m == 0 /\ diameter m == 0 /\ height m == 0 /\ whole_weight m == 0) ->
  all_zero m = false.
Proof.
  intro H. destruct (all_zero m) eqn:E; [|reflexivity].
  exfalso. apply H, all_zero_true, E.
Qed.

(** ** The claims *)

(** C1: for a record with length = diameter = height = whole_weight = 0 the
    handler writes the blocking error and its tip and stops there: the
    model's predict is never called and nothing else is evaluated. *)
Theorem all_zero_is_terminal_gate predict pie_chart m
  (Hl : length m == 0) (Hd : diameter m == 0) (Hh : height m == 0)
  (Hw : whole_weight m == 0) :
  on_predict predict pie_chart m =
    (inr tt, [EvError invalid_input_msg; EvInfo tip_msg]) /\
  blocked predict pie_chart m = true /\
  predict_invoked predict pie_chart m = false.
Proof.
  assert (Hz : all_zero m = true) by (apply all_zero_true; auto).
  unfold blocked, predict_invoked, run_log.
  rewrite (on_predict_rejected predict pie_chart m Hz). auto.
Qed.

Lemma all_zero_is_terminal_gate_witness :
  on_predict (const_model 9) pie_draws all_zero_input =
    (inr tt, [EvError invalid_input_msg; EvInfo tip_msg]) /\
  blocked (const_model 9) pie_draws all_zero_input = true /\
  predict_invoked (const_model 9) pie_draws all_zero_input = false.
Proof.
  apply (all_zero_is_terminal_gate (const_model 9) pie_draws all_zero_input);
    vm_compute; reflexivity.
Defined.

(** C2 (as the code has it): a record with shucked_weight > whole_weight is
    blocked only by the all-zero gate; when length, diameter, height and
    whole_weight are not all zero, the model is called first, with no
    error written before it. *)
Theorem shucked_over_whole_reaches_model predict pie_chart m
  (Hdom : in_domain m) (Hs : whole_weight m < shucked_weight m) :
  ((length m == 0 /\ diameter m == 0 /\ height m == 0 /\ whole_weight m == 0) ->
   blocked predict pie_chart m = true /\
   predict_invoked predict pie_chart m = false) /\
  (~ (length m == 0 /\ diameter m == 0 /\ height m == 0 /\ whole_weight m == 0) ->
   exists rest, run_log predict pie_chart m = EvPredict (model_row m) :: rest).
Proof.
  split.
  - intros (Hl & Hd & Hh & Hw).
    destruct (all_zero_is_terminal_gate predict pie_chart m Hl Hd Hh Hw) as (_ & B & P).
    auto.
  - intro Hnz.
    destruct (accepted_calls_model_first predict pie_chart m
                (all_zero_false m Hnz) (in_domain_whole m Hdom)) as (rest & E & _).
    eauto.
Qed.

Lemma shucked_over_whole_reaches_model_witness :
  exists rest,
    run_log (const_model 9) pie_draws shucked_heavy =
    EvPredict (model_row shucked_heavy) :: rest.
Proof.
  apply (shucked_over_whole_reaches_model (const_model 9) pie_draws shucked_heavy).
  - unfold in_domain. vm_compute. repeat split; discriminate.
  - vm_compute. reflexivity.
  - intros (Hl & _). vm_compute in Hl. discriminate.
Defined.

(** C2, the claim as stated fails: shucked_weight 0.5 > whole_weight 0.3,
    yet nothing blocks and the model is called. *)
Lemma shucked_over_whole_not_blocked :
  whole_weight shucked_heavy < shucked_weight shucked_heavy /\
  blocked (const_model 9) pie_draws shucked_heavy = false /\
  predict_invoked (const_model 9) pie_draws shucked_heavy = true.
Proof. vm_compute. split; [reflexivity | split; reflexivity]. Qed.

(** C3 (as the code has it): a record whose part weights sum to more than
    whole_weight is blocked only by the all-zero gate; otherwise the model is
    called first, with no error written before it. *)
Theorem parts_over_whole_reaches_model predict pie_chart m
  (Hdom : in_domain m)
  (Hs : whole_weight m < shucked_weight m + viscera_weight m + shell_weight m) :
  ((length m == 0 /\ diameter m == 0 /\ height m == 0 /\ whole_weight m == 0) ->
   blocked predict pie_chart m = true /\
   predict_invoked predict pie_chart m = false) /\
  (~ (length m == 0 /\ diameter m == 0 /\ height m == 0 /\ whole_weight m == 0) ->
   exists rest, run_log predict pie_chart m = EvPredict (model_row m) :: rest).
Proof.
  split.
  - intros (Hl & Hd & Hh & Hw).
    destruct (all_zero_is_terminal_gate predict pie_chart m Hl Hd Hh Hw) as (_ & B & P).
    auto.
  - intro Hnz.
    destruct (accepted_calls_model_first predict pie_chart m
                (all_zero_false m Hnz) (in_domain_whole m Hdom)) as (rest & E & _).
    eauto.
Qed.

Lemma parts_over_whole_reaches_model_witness :
  exists rest,
    run_log (const_model 9) pie_draws parts_heavy =
    EvPredict (model_row parts_heavy) :: rest.
Proof.
  apply (parts_over_whole_reaches_model (const_model 9) pie_draws parts_heavy).
  - unfold in_domain. vm_compute. repeat split; discriminate.
  - vm_compute. reflexivity.
  - intros (Hl & _). vm_compute in Hl. discriminate.
Defined.

(** C3, the claim as stated fails: the parts 0.4 + 0.3 + 0.3 weigh more than
    the whole 0.8, no single part does, and nothing blocks. *)
Lemma parts_over_whole_not_blocked :
  whole_weight parts_heavy <
    shucked_weight parts_heavy + viscera_weight parts_heavy + shell_weight parts_heavy /\
  shucked_weight parts_heavy <= whole_weight parts_heavy /\
  viscera_weight parts_heavy <= whole_weight parts_heavy /\
  shell_weight parts_heavy <= whole_weight parts_heavy /\
  blocked (const_model 9) pie_draws parts_heavy = false /\
  predict_invoked (const_model 9) pie_draws parts_heavy = true.
Proof.
  vm_compute. repeat split; try reflexivity; discriminate.
Qed.

(** C4 (as the code has it): a record with a zero dimension and a positive
    whole_weight passes the all-zero gate; the model is called first, with
    no error written before it. *)
Theorem zero_dimension_reaches_model predict pie_chart m
  (Hdom : in_domain m)
  (Hdim : length m == 0 \/ diameter m == 0 \/ height m == 0)
  (Hw : 0 < whole_weight m) :
  exists rest, run_log predict pie_chart m = EvPredict (model_row m) :: rest.
Proof.
  assert (Hnz : all_zero m = false).
  { apply all_zero_false. intros (_ & _ & _ & H0). rewrite H0 in Hw.
    apply (Qlt_irrefl 0 Hw). }
  destruct (accepted_calls_model_first predict pie_chart m Hnz (in_domain_whole m Hdom))
    as (rest & E & _).
  eauto.
Qed.

Lemma zero_dimension_reaches_model_witness :
  exists rest,
    run_log (const_model 9) pie_draws zero_length =
    EvPredict (model_row zero_length) :: rest.
Proof.
  apply (zero_dimension_reaches_model (const_model 9) pie_draws zero_length).
  - unfold in_domain. vm_compute. repeat split; discriminate.
  - left. vm_compute. reflexivity.
  - vm_compute. reflexivity.
Defined.

(** C4, the claim as stated fails on the spec's own example: length = 0,
    diameter = 0.4, height = 0.15, whole_weight = 0.8 is not blocked and the
    model is called. *)
Lemma zero_dimension_not_blocked :
  length zero_length == 0 /\ diameter zero_length == 0.4 /\
  height zero_length == 0.15 /\ whole_weight zero_length == 0.8 /\
  blocked (const_model 9) pie_draws zero_length = false /\
  predict_invoked (const_model 9) pie_draws zero_length = true.
Proof. vm_compute. repeat split; reflexivity. Qed.

(** C5: for every record of non-negative whole_weight (the slider's range),
    the feature step returns shell_weight / (whole_weight + 1e-8) and
    shucked_weight / (whole_weight + 1e-8) and raises nothing, also at
    whole_weight = 0. *)
Theorem build_features_total m (Hw : 0 <= whole_weight m) :
  build_features m =
  (inr (shell_weight m / (whole_weight m + 1e-8),
        shucked_weight m / (whole_weight m + 1e-8)), []).
Proof. exact (build_features_ok m Hw). Qed.

Lemma build_features_total_witness :
  build_features weightless =
  (inr (shell_weight weightless / (whole_weight weightless + 1e-8),
        shucked_weight weightless / (whole_weight weightless + 1e-8)), []).
Proof. apply build_features_total. vm_compute. discriminate. Defined.

(** C6: whatever the model returns (zero and negative values included), the
    estimated age written next to the ring count is that value plus 1.5. *)
Theorem estimated_age_is_rings_plus_offset predict pie_chart m
  (Hdom : in_domain m)
  (Hnz : ~ (length m == 0 /\ diameter m == 0 /\ height m == 0 /\ whole_weight m == 0)) :
  exists rest,
    run_log predict pie_chart m =
    EvPredict (model_row m)
    :: EvMetric "Number of Rings" (predict (model_row m))
    :: EvMetric "Estimated Age" (predict (model_row m) + 1.5)
    :: rest.
Proof.
  destruct (on_predict_accepted predict pie_chart m
              (all_zero_false m Hnz) (in_domain_whole m Hdom)) as (rest & E).
  eexists. rewrite E. reflexivity.
Qed.

Lemma estimated_age_is_rings_plus_offset_witness :
  exists rest,
    run_log (const_model (-2)) pie_draws default_input =
    EvPredict (model_row default_input)
    :: EvMetric "Number of Rings" (-2)
    :: EvMetric "Estimated Age" (-2 + 1.5)
    :: rest.
Proof.
  apply (estimated_age_is_rings_plus_offset (const_model (-2)) pie_draws default_input).
  - unfold in_domain. vm_compute. repeat split; discriminate.
  - intros (Hl & _). vm_compute in Hl. discriminate.
Defined.

(** C7: the life stage is "Young" exactly below 7, "Adult" exactly on
    [7, 12) and "Mature" exactly from 12 on; 7.0 is "Adult", 12.0 "Mature". *)
Theorem life_stage_thresholds (age : Q) :
  (life_stage age = "Young"%string <-> age < 7) /\
  (life_stage age = "Adult"%string <-> 7 <= age /\ age < 12) /\
  (life_stage age = "Mature"%string <-> 12 <= age) /\
  life_stage 6.999 = "Young"%string /\ life_stage 7.0 = "Adult"%string /\
  life_stage 11.999 = "Adult"%string /\ life_stage 12.0 = "Mature"%string.
Proof.
  refine (conj _ (conj _ (conj _ _)));
    [| | | vm_compute; repeat split; reflexivity].
  all: unfold life_stage; destruct (py_lt age 7) eqn:E7;
    [apply py_lt_true in E7
    | apply py_lt_false in E7; destruct (py_lt age 12) eqn:E12;
      [apply py_lt_true in E12 | apply py_lt_false in E12]].
  all: split; intro H; try discriminate; try reflexivity; try lra;
    exfalso; lra.
Qed.




(** C9: the ratio features are a function of shell_weight, shucked_weight and
    whole_weight alone, and running the feature step twice on a record gives
    the same pair both times and writes nothing. *)
Theorem build_features_pure m1 m2
  (Hsh : shell_weight m1 = shell_weight m2)
  (Hsk : shucked_weight m1 = shucked_weight m2)
  (Hw : whole_weight m1 = whole_weight m2) :
  build_features m1 = build_features m2 /\
  features_twice m1 =
    (match fst (build_features m1) with
     | inl e => inl e
     | inr x => inr (x, x)
     end, []).
Proof.
  split.
  - unfold build_features. rewrite Hsh, Hsk, Hw. reflexivity.
  - unfold features_twice, build_features, py_div.
    destruct (py_eq (whole_weight m1 + eps) 0); reflexivity.
Qed.

Lemma build_features_pure_witness :
  build_features default_input = build_features (mkMeasurements 0.1 0.1 0.1 0.8 0.35 0.9 0.24) /\
  features_twice default_input =
    (match fst (build_features default_input) with
     | inl e => inl e
     | inr x => inr (x, x)
     end, []).
Proof. apply build_features_pure; reflexivity. Defined.

(** C10: on the slider domain, the model is called exactly when length,
    diameter, height and whole_weight are not all zero, and then it is the
    first thing the handler does: the all-zero test is the page's only
    validation rule. *)
Theorem predict_iff_not_all_zero predict pie_chart m (Hdom : in_domain m) :
  (predict_invoked predict pie_chart m = true <->
   ~ (length m == 0 /\ diameter m == 0 /\ height m == 0 /\ whole_weight m == 0)) /\
  (~ (length m == 0 /\ diameter m == 0 /\ height m == 0 /\ whole_weight m == 0) ->
   exists rest, run_log predict pie_chart m = EvPredict (model_row m) :: rest).
Proof.
  assert (Hacc : ~ (length m == 0 /\ diameter m == 0 /\ height m == 0 /\
                    whole_weight m == 0) ->
                 exists rest, run_log predict pie_chart m = EvPredict (model_row m) :: rest /\
                 predict_invoked predict pie_chart m = true).
  { intro Hnz. exact (accepted_calls_model_first predict pie_chart m
                        (all_zero_false m Hnz) (in_domain_whole m Hdom)). }
  split.
  - split.
    + intros Hp (Hl & Hd & Hh & Hw).
      destruct (all_zero_is_terminal_gate predict pie_chart m Hl Hd Hh Hw) as (_ & _ & P).
      congruence.
    + intro Hnz. destruct (Hacc Hnz) as (rest & _ & P). exact P.
  - intro Hnz. destruct (Hacc Hnz) as (rest & E & _). eauto.
Qed.

Lemma predict_iff_not_all_zero_witness :
  (predict_invoked (const_model 9) pie_draws zero_length = true <->
   ~ (length zero_length == 0 /\ diameter zero_length == 0 /\
      height zero_length == 0 /\ whole_weight zero_length == 0)) /\
  (~ (length zero_length == 0 /\ diameter zero_length == 0 /\
      height zero_length == 0 /\ whole_weight zero_length == 0) ->
   exists rest, run_log (const_model 9) pie_draws zero_length =
                EvPredict (model_row zero_length) :: rest).
Proof.
  apply predict_iff_not_all_zero. unfold in_domain. vm_compute. repeat split; discriminate.
Defined.

(** ** Further properties of the handler *)

Lemma py_eq_false x y : ~ x == y -> py_eq x y = false.
Proof.
  intro H. destruct (py_eq x y) eqn:E; [|reflexivity].
  exfalso. apply H, py_eq_true, E.
Qed.

Lemma weight_summary_ok m :
  0 < whole_weight m ->
  weight_summary m =
  (inr tt, [EvWrite "Total Weight" [whole_weight m];
            EvWrite "Meat Weight"
              [shucked_weight m; shucked_weight m / whole_weight m * 100];
            EvWrite "Shell Weight"
              [shell_weight m; shell_weight m / whole_weight m * 100]]).
Proof.
  intro H. unfold weight_summary.
  rewrite !py_div_nonzero by (apply py_eq_false; intro E; rewrite E in H;
                               apply (Qlt_irrefl 0 H)).
  reflexivity.
Qed.

(** Lines 199-211: the highlighted bar of the age chart is always one of the
    four bars, and it agrees with the life stage of lines 133-141: bar 0 is
    "Young", bar 1 "Adult", bars 2 and 3 (split at 18) "Mature". *)
Theorem age_bracket_matches_life_stage (age : Q) :
  (age_bracket age < 4)%nat /\
  (age_bracket age = 0%nat <-> life_stage age = "Young"%string) /\
  (age_bracket age = 1%nat <-> life_stage age = "Adult"%string) /\
  ((age_bracket age = 2%nat \/ age_bracket age = 3%nat) <->
   life_stage age = "Mature"%string) /\
  (age_bracket age = 2%nat <-> 12 <= age /\ age < 18) /\
  (age_bracket age = 3%nat <-> 18 <= age).
Proof.
  unfold age_bracket, life_stage.
  destruct (py_lt age 7) eqn:E7;
    [apply py_lt_true in E7
    | apply py_lt_false in E7; destruct (py_lt age 12) eqn:E12;
      [apply py_lt_true in E12
      | apply py_lt_false in E12; destruct (py_lt age 18) eqn:E18;
        [apply py_lt_true in E18 | apply py_lt_false in E18]]].
  all: repeat split; intros; repeat match goal with H : _ \/ _ |- _ => destruct H end;
    try discriminate; try reflexivity; auto; try lra; try (exfalso; lra).
Qed.

(** Line 268: on the slider domain the guarded meat percentage is never
    negative, and it is at most 100 when the meat weighs no more than the
    whole abalone. *)
Theorem meat_percentage_bounds m (Hdom : in_domain m) :
  0 <= meat_percentage m /\
  (shucked_weight m <= whole_weight m -> meat_percentage m <= 100).
Proof.
  destruct Hdom as (_ & _ & _ & (Hw & _) & (Hs & _) & _).
  unfold meat_percentage. destruct (py_gt (whole_weight m) 0) eqn:E.
  - apply py_lt_true in E.
    assert (H0 : 0 <= shucked_weight m / whole_weight m)
      by (apply Qle_shift_div_l; [exact E | lra]).
    split.
    + lra.
    + intro Hle.
      assert (shucked_weight m / whole_weight m <= 1)
        by (apply Qle_shift_div_r; [exact E | lra]).
      lra.
  - split; [apply Qle_refl | intros _; discriminate].
Qed.

Lemma meat_percentage_bounds_witness :
  0 <= meat_percentage default_input /\
  (shucked_weight default_input <= whole_weight default_input ->
   meat_percentage default_input <= 100).
Proof.
  apply meat_percentage_bounds. unfold in_domain. vm_compute.
  repeat split; discriminate.
Defined.

(** Lines 270-275: the insight is a success above 45 %, an info above 35 %
    up to 45 %, and a warning at 35 % or less; a weightless abalone gets the
    warning. *)
Theorem meat_insight_bands (p : Q) :
  (meat_insight p = EvSuccess "High meat content! Great for consumption."
   <-> 45 < p) /\
  (meat_insight p = EvInfo "Good meat content." <-> 35 < p /\ p <= 45) /\
  (meat_insight p = EvWarning "Lower meat content than average." <-> p <= 35) /\
  meat_insight (meat_percentage weightless) =
    EvWarning "Lower meat content than average.".
Proof.
  refine (conj _ (conj _ (conj _ _))); [| | | reflexivity].
  all: unfold meat_insight, py_gt; destruct (py_lt 45 p) eqn:E45;
    [apply py_lt_true in E45
    | apply py_lt_false in E45; destruct (py_lt 35 p) eqn:E35;
      [apply py_lt_true in E35 | apply py_lt_false in E35]].
  all: split; intro H; try discriminate; try reflexivity; try lra;
    exfalso; lra.
Qed.

(** Lines 261-268: with a positive whole weight the weight summary raises
    nothing, and the meat share it prints is the guarded percentage of line
    268 that drives the insight. *)
Theorem weight_summary_agrees_with_insight m (Hw : 0 < whole_weight m) :
  weight_summary m =
  (inr tt, [EvWrite "Total Weight" [whole_weight m];
            EvWrite "Meat Weight" [shucked_weight m; meat_percentage m];
            EvWrite "Shell Weight"
              [shell_weight m; shell_weight m / whole_weight m * 100]]).
Proof.
  rewrite (weight_summary_ok m Hw). unfold meat_percentage.
  assert (E : py_gt (whole_weight m) 0 = true) by (apply py_lt_true; exact Hw).
  rewrite E. reflexivity.
Qed.

Lemma weight_summary_agrees_with_insight_witness :
  weight_summary default_input =
  (inr tt, [EvWrite "Total Weight" [whole_weight default_input];
            EvWrite "Meat Weight" [shucked_weight default_input;
                                   meat_percentage default_input];
            EvWrite "Shell Weight"
              [shell_weight default_input;
               shell_weight default_input / whole_weight default_input * 100]]).
Proof. apply weight_summary_agrees_with_insight. reflexivity. Defined.

(** Lines 85-286: on the slider domain, with a positive whole weight and a
    pie chart that draws, a button press finishes normally, and the page
    shows, in order: the model call, the ring count, the age, the life
    stage, the two charts, what the pie chart drew, the weight summary, the
    insight and the detailed measurements, whose Height row shows
    shell_weight: the bar-label loops rebound [height] before line 282. *)
Theorem accepted_run_completes predict pie_chart m
  (Hdom : in_domain m) (Hw : 0 < whole_weight m)
  (Hpie : fst (pie_chart m) = inr tt) :
  let y := predict (model_row m) in
  fst (on_predict predict pie_chart m) = inr tt /\
  run_log predict pie_chart m =
  [EvPredict (model_row m);
   EvMetric "Number of Rings" y;
   EvMetric "Estimated Age" (y + 1.5);
   EvStage (life_stage (y + 1.5));
   EvMeasurementChart [length m; diameter m; height m]
     [whole_weight m; shucked_weight m; viscera_weight m; shell_weight m];
   EvAgeChart (age_bracket (y + 1.5)) (y + 1.5)]
  ++ snd (pie_chart m)
  ++ [EvWrite "Total Weight" [whole_weight m];
      EvWrite "Meat Weight"
        [shucked_weight m; shucked_weight m / whole_weight m * 100];
      EvWrite "Shell Weight"
        [shell_weight m; shell_weight m / whole_weight m * 100];
      meat_insight (meat_percentage m);
      EvDetails [length m; diameter m; shell_weight m; whole_weight m;
                 shucked_weight m; viscera_weight m; shell_weight m]].
Proof.
  assert (Hz : all_zero m = false).
  { apply all_zero_false. intros (_ & _ & _ & H0). rewrite H0 in Hw.
    apply (Qlt_irrefl 0 Hw). }
  unfold run_log, on_predict. rewrite Hz, build_features_ok by (apply Qlt_le_weak, Hw).
  cbv [bind call_predict emit ret fst snd app].
  destruct (pie_chart m) as [r w].
  simpl in Hpie. subst r. rewrite (weight_summary_ok m Hw).
  split; reflexivity.
Qed.

Lemma accepted_run_completes_witness :
  let y := const_model 9 (model_row default_input) in
  fst (on_predict (const_model 9) pie_draws default_input) = inr tt /\
  run_log (const_model 9) pie_draws default_input =
  [EvPredict (model_row default_input);
   EvMetric "Number of Rings" y;
   EvMetric "Estimated Age" (y + 1.5);
   EvStage (life_stage (y + 1.5));
   EvMeasurementChart [length default_input; diameter default_input;
                       height default_input]
     [whole_weight default_input; shucked_weight default_input;
      viscera_weight default_input; shell_weight default_input];
   EvAgeChart (age_bracket (y + 1.5)) (y + 1.5)]
  ++ snd (pie_draws default_input)
  ++ [EvWrite "Total Weight" [whole_weight default_input];
      EvWrite "Meat Weight"
        [shucked_weight default_input;
         shucked_weight default_input / whole_weight default_input * 100];
      EvWrite "Shell Weight"
        [shell_weight default_input;
         shell_weight default_input / whole_weight default_input * 100];
      meat_insight (meat_percentage default_input);
      EvDetails [length default_input; diameter default_input;
                 shell_weight default_input; whole_weight default_input;
                 shucked_weight default_input; viscera_weight default_input;
                 shell_weight default_input]].
Proof.
  apply accepted_run_completes.
  - unfold in_domain. vm_compute. repeat split; discriminate.
  - reflexivity.
  - reflexivity.
Defined.

(** Lines 85-263: a record with whole weight 0 that passes the all-zero test
    (some dimension is nonzero) never finishes normally: the run ends in the
    pie chart's exception if it raises one, and otherwise in the
    [ZeroDivisionError] of line 262. *)
Theorem weightless_run_never_completes predict pie_chart m
  (Hdom : in_domain m) (Hw : whole_weight m == 0)
  (Hnz : ~ (length m == 0 /\ diameter m == 0 /\ height m == 0)) :
  fst (on_predict predict pie_chart m) =
  match fst (pie_chart m) with
  | inl e => inl e
  | inr _ => inl ZeroDivisionError
  end.
Proof.
  assert (Hz : all_zero m = false).
  { apply all_zero_false. intros (Hl & Hd & Hh & _). apply Hnz; auto. }
  assert (Hs : weight_summary m =
    (inl ZeroDivisionError, [EvWrite "Total Weight" [whole_weight m]])).
  { unfold weight_summary. rewrite py_div_zero by exact Hw. reflexivity. }
  unfold on_predict. rewrite Hz, build_features_ok by (apply in_domain_whole, Hdom).
  cbv [bind call_predict emit ret fst snd app].
  destruct (pie_chart m) as [[e|[]] w]; [reflexivity|].
  rewrite Hs. reflexivity.
Qed.

Lemma weightless_run_never_completes_witness :
  fst (on_predict (const_model 9) pie_draws weightless) =
  match fst (pie_draws weightless) with
  | inl e => inl e
  | inr _ => inl ZeroDivisionError
  end.
Proof.
  apply weightless_run_never_completes.
  - unfold in_domain. vm_compute. repeat split; discriminate.
  - reflexivity.
  - intros (Hl & _). vm_compute in Hl. discriminate.
Defined.

(** Lines 93-94 and 97-107: the model row carries the seven slider values
    unchanged, and on a record whose shell and meat weigh no more than the
    whole, both ratio features lie in [0, 1). *)
Theorem model_row_ratios_in_unit_interval m (Hdom : in_domain m)
  (Hsh : shell_weight m <= whole_weight m)
  (Hsk : shucked_weight m <= whole_weight m) :
  df_length (model_row m) = length m /\
  df_diameter (model_row m) = diameter m /\
  df_height (model_row m) = height m /\
  df_whole_weight (model_row m) = whole_weight m /\
  df_shucked_weight (model_row m) = shucked_weight m /\
  df_viscera_weight (model_row m) = viscera_weight m /\
  df_shell_weight (model_row m) = shell_weight m /\
  0 <= df_shell_ratio (model_row m) < 1 /\
  0 <= df_shucked_ratio (model_row m) < 1.
Proof.
  destruct Hdom as (_ & _ & _ & (Hw & _) & (Hs0 & _) & _ & (Hh0 & _)).
  assert (He : 0 < eps) by reflexivity.
  assert (Hd : 0 < whole_weight m + eps) by lra.
  unfold model_row, make_df. simpl.
  repeat split; try reflexivity.
  - apply Qle_shift_div_l; [exact Hd | lra].
  - apply Qlt_shift_div_r; [exact Hd | lra].
  - apply Qle_shift_div_l; [exact Hd | lra].
  - apply Qlt_shift_div_r; [exact Hd | lra].
Qed.

Lemma model_row_ratios_in_unit_interval_witness :
  df_length (model_row default_input) = length default_input /\
  df_diameter (model_row default_input) = diameter default_input /\
  df_height (model_row default_input) = height default_input /\
  df_whole_weight (model_row default_input) = whole_weight default_input /\
  df_shucked_weight (model_row default_input) = shucked_weight default_input /\
  df_viscera_weight (model_row default_input) = viscera_weight default_input /\
  df_shell_weight (model_row default_input) = shell_weight default_input /\
  0 <= df_shell_ratio (model_row default_input) < 1 /\
  0 <= df_shucked_ratio (model_row default_input) < 1.
Proof.
  apply model_row_ratios_in_unit_interval.
  - unfold in_domain. vm_compute. repeat split; discriminate.
  - vm_compute. discriminate.
  - vm_compute. discriminate.
Defined.
